(** * LambdaBuilder: the dynamic-symbol shim of PythonKit's libpylamsupport

    A shallow embedding of [Sources/libpylamsupport/LambdaBuilder.c] and of
    its header.  The translation unit owns seven file-scope variables (the
    library handle and six function pointers), resolves the pointers with
    the platform's symbol lookup, and calls through them.  Every function
    of the file is embedded as a computation over an explicit machine
    state; the Python runtime behind the pointers is a parameter. *)

From Stdlib Require Import ZArith List String Ascii Bool Lia.
Import ListNotations.

Local Open Scope Z_scope.
Local Open Scope string_scope.
Local Open Scope list_scope.

(** ** C values *)

(** Addresses.  Object handles ([PyObject*]), C strings ([char*]), method
    tables ([PyMethodDef*]), library handles ([void*]) and function pointers
    are all addresses; the shim never looks behind one. *)
Definition ptr := Z.

Definition NULL : ptr := 0.

(** What travels through an argument list or sits in an automatic variable.
    A [double] is carried as its 64-bit IEEE pattern: the shim moves doubles
    and never computes with them. *)
Inductive cval : Type :=
| Vundef                      (* an automatic variable nobody has written *)
| VLong (n : Z)               (* long int *)
| VULongLong (n : Z)          (* unsigned long long *)
| VDouble (bits : Z)          (* double *)
| VPtr (p : ptr)              (* any pointer passed by value *)
| VStr (s : string)           (* the address of a string literal *)
| VRef (i : nat).             (* &local: the i-th automatic of the caller *)

(** [int result = ...]: the value of an [int], from the raw return of a
    callee declared to return [int] (two's complement, 32 bits). *)
Definition int_of_raw (z : Z) : Z := (z + 2 ^ 31) mod 2 ^ 32 - 2 ^ 31.

(** [*error = result]: conversion of [int] to [long int]; [long int] is at
    least as wide as [int], the value is kept. *)
Definition long_of_int (n : Z) : Z := n.

(** [(unsigned long long)value] on a pointer. *)
Definition ull_of_ptr (p : ptr) : Z := p mod 2 ^ 64.

(** The line feed that ends both diagnostic format strings. *)
Definition LF : string := String (ascii_of_nat 10) EmptyString.

(** ** What a callee hands back *)

(** A call through a function pointer gives back the raw return value
    (read as [int] or as a pointer, as the pointer's type says) and the
    stores it made through the [VRef] arguments it received, oldest first. *)
Record reply : Type := mkReply {
  r_ret : Z;
  r_stores : list (nat * cval)
}.

(** The content of automatic variable [i] after the call: the last store to
    it, and [Vundef] when the callee left it alone (all the automatics the
    shim passes are declared without initialiser). *)
Definition cell (i : nat) (stores : list (nat * cval)) : cval :=
  fold_left (fun c (s : nat * cval) => if Nat.eqb (fst s) i then snd s else c)
            stores Vundef.

(** ** The platform and the Python runtime *)

(** Everything outside the translation unit:
    - [WIN32]: which branch of [#ifdef _WIN32] is compiled;
    - [symbol_address]: [dlsym] (POSIX) or [GetProcAddress] (Windows), the
      address of a name in a loaded image, [NULL] when the image lacks it;
    - [invoke]: the behaviour of the code at a non-null address, on the
      runtime's own state [world].  It cannot reach the shim's variables. *)
Class Runtime : Type := {
  world : Type;
  WIN32 : bool;
  symbol_address : ptr -> string -> ptr;
  invoke : ptr -> list cval -> world -> world * reply
}.

(** ** Observable effects *)

Inductive event : Type :=
| EvLookup (handle : ptr) (name : string)   (* dlsym / GetProcAddress *)
| EvCall (f : ptr) (args : list cval)       (* call through a pointer *)
| EvPrintf (fmt : string) (args : list cval)
| EvMalloc (size : Z)                       (* heap traffic: only the *)
| EvFree (p : ptr).                         (* commented-out code has any *)

(** ** The file-scope variables (LambdaBuilder.c, lines 12-18) *)

Record slots : Type := mkSlots {
  _pythonLibraryHandle : ptr;
  pyarg_parsetuple : ptr;
  py_buildvalue : ptr;
  pyunicode_asutf8 : ptr;
  pyunicode_fromstring : ptr;
  py_createPyCFunction : ptr;
  py_boolfromlong : ptr
}.

(** Zero-initialised, as C does for objects of static storage duration. *)
Definition slots_at_load : slots := mkSlots NULL NULL NULL NULL NULL NULL NULL.

Definition set__pythonLibraryHandle (p : ptr) (s : slots) : slots :=
  mkSlots p (pyarg_parsetuple s) (py_buildvalue s) (pyunicode_asutf8 s)
          (pyunicode_fromstring s) (py_createPyCFunction s) (py_boolfromlong s).

Definition set_pyarg_parsetuple (p : ptr) (s : slots) : slots :=
  mkSlots (_pythonLibraryHandle s) p (py_buildvalue s) (pyunicode_asutf8 s)
          (pyunicode_fromstring s) (py_createPyCFunction s) (py_boolfromlong s).

Definition set_py_buildvalue (p : ptr) (s : slots) : slots :=
  mkSlots (_pythonLibraryHandle s) (pyarg_parsetuple s) p (pyunicode_asutf8 s)
          (pyunicode_fromstring s) (py_createPyCFunction s) (py_boolfromlong s).

Definition set_pyunicode_asutf8 (p : ptr) (s : slots) : slots :=
  mkSlots (_pythonLibraryHandle s) (pyarg_parsetuple s) (py_buildvalue s) p
          (pyunicode_fromstring s) (py_createPyCFunction s) (py_boolfromlong s).

Definition set_pyunicode_fromstring (p : ptr) (s : slots) : slots :=
  mkSlots (_pythonLibraryHandle s) (pyarg_parsetuple s) (py_buildvalue s)
          (pyunicode_asutf8 s) p (py_createPyCFunction s) (py_boolfromlong s).

Definition set_py_createPyCFunction (p : ptr) (s : slots) : slots :=
  mkSlots (_pythonLibraryHandle s) (pyarg_parsetuple s) (py_buildvalue s)
          (pyunicode_asutf8 s) (pyunicode_fromstring s) p (py_boolfromlong s).

Definition set_py_boolfromlong (p : ptr) (s : slots) : slots :=
  mkSlots (_pythonLibraryHandle s) (pyarg_parsetuple s) (py_buildvalue s)
          (pyunicode_asutf8 s) (pyunicode_fromstring s) (py_createPyCFunction s) p.

(** The six entry points by role, the name each is resolved under and the
    variable that holds it. *)
Inductive role : Type :=
| ParseTuple | BuildValue | AsUTF8 | FromString | BoolFromLong | NewEx.

Definition all_roles : list role :=
  [ParseTuple; BuildValue; AsUTF8; FromString; BoolFromLong; NewEx].

Definition symbol_name (r : role) : string :=
  match r with
  | ParseTuple => "PyArg_ParseTuple"
  | BuildValue => "Py_BuildValue"
  | AsUTF8 => "PyUnicode_AsUTF8"
  | FromString => "PyUnicode_FromString"
  | BoolFromLong => "PyBool_FromLong"
  | NewEx => "PyCFunction_NewEx"
  end.

Definition slot (r : role) : slots -> ptr :=
  match r with
  | ParseTuple => pyarg_parsetuple
  | BuildValue => py_buildvalue
  | AsUTF8 => pyunicode_asutf8
  | FromString => pyunicode_fromstring
  | BoolFromLong => py_boolfromlong
  | NewEx => py_createPyCFunction
  end.

Section Machine.

Context {RT : Runtime}.

(** ** Machine state and the monad of C computations *)

Record machine : Type := mkMachine {
  globals : slots;
  python : world;
  trace : list event          (* oldest first *)
}.

(** A computation returns to its caller, ends the process through [exit],
    or has undefined behaviour, after which nothing is known. *)
Inductive outcome (A : Type) : Type :=
| Returns (a : A) (m : machine)
| Exits (status : Z) (m : machine)
| Undefined.

Arguments Returns {A} a m.
Arguments Exits {A} status m.
Arguments Undefined {A}.

Definition M (A : Type) : Type := machine -> outcome A.

Definition ret {A} (a : A) : M A := fun m => Returns a m.

Definition bind {A B} (c : M A) (k : A -> M B) : M B :=
  fun m =>
    match c m with
    | Returns a m' => k a m'
    | Exits status m' => Exits status m'
    | Undefined => Undefined
    end.

End Machine.

Arguments Returns {RT A} a m.
Arguments Exits {RT A} status m.
Arguments Undefined {RT A}.

Declare Scope c_scope.
Delimit Scope c_scope with C.
Notation "x <- c ;; k" := (bind c (fun x => k))
  (at level 100, c at next level, right associativity) : c_scope.
Notation "c ;; k" := (bind c (fun _ => k))
  (at level 100, right associativity) : c_scope.
Local Open Scope c_scope.

Section Primitives.

Context {RT : Runtime}.

Definition emit (e : event) : M unit :=
  fun m => Returns tt (mkMachine (globals m) (python m) (trace m ++ [e])).

(** Reading and assigning a file-scope variable. *)
Definition load (var : slots -> ptr) : M ptr :=
  fun m => Returns (var (globals m)) m.

Definition assign (set : ptr -> slots -> slots) (p : ptr) : M unit :=
  fun m => Returns tt (mkMachine (set p (globals m)) (python m) (trace m)).

(** [dlsym(handle, name)] / [GetProcAddress(handle, name)]. *)
Definition dlsym (handle : ptr) (name : string) : M ptr :=
  emit (EvLookup handle name) ;; ret (symbol_address handle name).

(** A call through the function pointer [f].  Calling through a null
    pointer is undefined; at any other address the code there runs on the
    runtime's state. *)
Definition call (f : ptr) (args : list cval) : M reply :=
  fun m =>
    if Z.eqb f NULL then Undefined
    else
      let wr := invoke f args (python m) in
      Returns (snd wr)
              (mkMachine (globals m) (fst wr) (trace m ++ [EvCall f args])).

Definition printf (fmt : string) (args : list cval) : M unit :=
  emit (EvPrintf fmt args).

Definition exit {A} (status : Z) : M A := fun m => Exits status m.

End Primitives.

(** ** The functions of LambdaBuilder.c *)

Section LambdaBuilder.

Context {RT : Runtime}.

(** [int initialisePythonLibrary(void* libraryHandle)], lines 20-37.
    The Windows branch looks every name up in the parameter, the POSIX
    branch in the variable just assigned.  The body has no [return]
    statement: control reaches the closing brace and the call carries no
    value, which is the [None] below. *)
Definition initialisePythonLibrary (libraryHandle : ptr) : M (option Z) :=
  assign set__pythonLibraryHandle libraryHandle ;;
  (if WIN32 then
     p <- dlsym libraryHandle "PyArg_ParseTuple" ;;
     assign set_pyarg_parsetuple p ;;
     p <- dlsym libraryHandle "Py_BuildValue" ;;
     assign set_py_buildvalue p ;;
     p <- dlsym libraryHandle "PyUnicode_AsUTF8" ;;
     assign set_pyunicode_asutf8 p ;;
     p <- dlsym libraryHandle "PyUnicode_FromString" ;;
     assign set_pyunicode_fromstring p ;;
     p <- dlsym libraryHandle "PyBool_FromLong" ;;
     assign set_py_boolfromlong p ;;
     p <- dlsym libraryHandle "PyCFunction_NewEx" ;;
     assign set_py_createPyCFunction p
   else
     h <- load _pythonLibraryHandle ;;
     p <- dlsym h "PyArg_ParseTuple" ;;
     assign set_pyarg_parsetuple p ;;
     h <- load _pythonLibraryHandle ;;
     p <- dlsym h "Py_BuildValue" ;;
     assign set_py_buildvalue p ;;
     h <- load _pythonLibraryHandle ;;
     p <- dlsym h "PyUnicode_AsUTF8" ;;
     assign set_pyunicode_asutf8 p ;;
     h <- load _pythonLibraryHandle ;;
     p <- dlsym h "PyUnicode_FromString" ;;
     assign set_pyunicode_fromstring p ;;
     h <- load _pythonLibraryHandle ;;
     p <- dlsym h "PyBool_FromLong" ;;
     assign set_py_boolfromlong p ;;
     h <- load _pythonLibraryHandle ;;
     p <- dlsym h "PyCFunction_NewEx" ;;
     assign set_py_createPyCFunction p) ;;
  ret None.

(** The parse functions, lines 39-92.  Each declares its automatics without
    initialiser, passes their addresses after the format, copies the [int]
    result into [*error] and the extra objects into [*objectB], [*objectC].
    The out-parameters are returned after the function's own value:
    [(value, error)], [(valueA, objectB, error)],
    [(valueA, objectB, objectC, error)]. *)
Definition parseArgsToString (args : ptr) : M (cval * Z) :=
  f <- load pyarg_parsetuple ;;
  r <- call f [VPtr args; VStr "s"; VRef 0] ;;
  let value := cell 0 (r_stores r) in
  let result := int_of_raw (r_ret r) in
  let error := long_of_int result in
  ret (value, error).

Definition parseArgsToDouble (args : ptr) : M (cval * Z) :=
  f <- load pyarg_parsetuple ;;
  r <- call f [VPtr args; VStr "d"; VRef 0] ;;
  let value := cell 0 (r_stores r) in
  let result := int_of_raw (r_ret r) in
  let error := long_of_int result in
  ret (value, error).

Definition parseArgsToLongInt (args : ptr) : M (cval * Z) :=
  f <- load pyarg_parsetuple ;;
  r <- call f [VPtr args; VStr "l"; VRef 0] ;;
  let value := cell 0 (r_stores r) in
  let result := int_of_raw (r_ret r) in
  let error := long_of_int result in
  ret (value, error).

Definition parseArgsToObject (args : ptr) : M (cval * Z) :=
  f <- load pyarg_parsetuple ;;
  r <- call f [VPtr args; VStr "O"; VRef 0] ;;
  let value := cell 0 (r_stores r) in
  let result := int_of_raw (r_ret r) in
  let error := long_of_int result in
  ret (value, error).

Definition parseArgsToObjectPair (args : ptr) : M (cval * cval * Z) :=
  f <- load pyarg_parsetuple ;;
  r <- call f [VPtr args; VStr "OO"; VRef 0; VRef 1] ;;
  let valueA := cell 0 (r_stores r) in
  let valueB := cell 1 (r_stores r) in
  let result := int_of_raw (r_ret r) in
  let error := long_of_int result in
  let objectB := valueB in
  ret (valueA, objectB, error).

Definition parseArgsToObjectTriple (args : ptr) : M (cval * cval * cval * Z) :=
  f <- load pyarg_parsetuple ;;
  r <- call f [VPtr args; VStr "OOO"; VRef 0; VRef 1; VRef 2] ;;
  let valueA := cell 0 (r_stores r) in
  let valueB := cell 1 (r_stores r) in
  let valueC := cell 2 (r_stores r) in
  let result := int_of_raw (r_ret r) in
  let error := long_of_int result in
  let objectB := valueB in
  let objectC := valueC in
  ret (valueA, objectB, objectC, error).

(** The wrap functions, lines 94-117. *)
Definition wrapLongInt (value : Z) : M ptr :=
  f <- load py_buildvalue ;;
  r <- call f [VStr "l"; VLong value] ;;
  let pyValue := r_ret r in
  ret pyValue.

Definition wrapString (value : ptr) : M ptr :=
  f <- load py_buildvalue ;;
  r <- call f [VStr "s"; VPtr value] ;;
  let pyValue := r_ret r in
  ret pyValue.

Definition wrapDouble (value : Z) : M ptr :=
  f <- load py_buildvalue ;;
  r <- call f [VStr "d"; VDouble value] ;;
  let pyValue := r_ret r in
  ret pyValue.

Definition wrapObject (value : ptr) : M ptr :=
  f <- load py_buildvalue ;;
  r <- call f [VStr "O"; VPtr value] ;;
  let pyValue := r_ret r in
  ret pyValue.

Definition wrapBool (value : Z) : M ptr :=
  f <- load py_boolfromlong ;;
  r <- call f [VLong value] ;;
  let pyValue := r_ret r in
  ret pyValue.

(** [stringFromPythonObject], lines 150-152. *)
Definition stringFromPythonObject (p : ptr) : M ptr :=
  f <- load pyunicode_asutf8 ;;
  r <- call f [VPtr p] ;;
  ret (r_ret r).

(** [getPyUnicode_FromString], lines 160-166: the one function that tests
    its pointer before the call. *)
Definition getPyUnicode_FromString (u : ptr) : M ptr :=
  f <- load pyunicode_fromstring ;;
  (if Z.eqb f NULL then
     printf ("Lambda functions not available on Python 2!" ++ LF)%string [] ;;
     exit 1
   else ret tt) ;;
  f <- load pyunicode_fromstring ;;
  r <- call f [VPtr u] ;;
  ret (r_ret r).

(** [createPyCFunction], lines 168-170. *)
Definition createPyCFunction (ml data : ptr) : M ptr :=
  f <- load py_createPyCFunction ;;
  r <- call f [VPtr ml; VPtr data; VPtr NULL] ;;
  ret (r_ret r).

(** [debug_showAddress], lines 172-174. *)
Definition debug_showAddress (varName value : ptr) : M unit :=
  printf ("variable %s has value %#llx" ++ LF)%string
         [VPtr varName; VULongLong (ull_of_ptr value)].

End LambdaBuilder.

(** ** Vocabulary of the statements *)

Section Vocabulary.

Context {RT : Runtime}.

(** What the code at [f] answers to [args] in machine [m], and the machine
    it leaves: the shim's variables as they were, the runtime's state moved
    on, one call event appended. *)
Definition answer (m : machine) (f : ptr) (args : list cval) : reply :=
  snd (invoke f args (python m)).

Definition after_call (m : machine) (f : ptr) (args : list cval) : machine :=
  mkMachine (globals m) (fst (invoke f args (python m)))
            (trace m ++ [EvCall f args]).

(** The machine after a diagnostic line. *)
Definition after_printf (m : machine) (fmt : string) (args : list cval)
  : machine :=
  mkMachine (globals m) (python m) (trace m ++ [EvPrintf fmt args]).

(** The six lookups of one initialisation, in program order. *)
Definition lookups (h : ptr) : list event :=
  map (fun r => EvLookup h (symbol_name r)) all_roles.

(** A computation whose only effect is one call through a pointer: it
    returns, the file-scope variables are as before, and the trace grew by
    exactly one [EvCall]. *)
Definition only_one_call {A} (c : M A) (m : machine) : Prop :=
  exists a m' f args,
    c m = Returns a m' /\
    globals m' = globals m /\
    trace m' = trace m ++ [EvCall f args].

(** The same reading, silent about runs with undefined behaviour. *)
Definition no_effect_beyond_call {A} (c : M A) (m : machine) : Prop :=
  match c m with
  | Returns _ m' =>
      globals m' = globals m /\
      exists f args, trace m' = trace m ++ [EvCall f args]
  | Exits _ _ => False
  | Undefined => True
  end.

(** Every function that calls through the variable of role [r] goes wrong
    in [m]: undefined behaviour, or for [getPyUnicode_FromString] the
    diagnostic and [exit(1)]. *)
Definition use_fails (r : role) (m : machine) : Prop :=
  match r with
  | ParseTuple =>
      forall args,
        parseArgsToString args m = Undefined /\
        parseArgsToDouble args m = Undefined /\
        parseArgsToLongInt args m = Undefined /\
        parseArgsToObject args m = Undefined /\
        parseArgsToObjectPair args m = Undefined /\
        parseArgsToObjectTriple args m = Undefined
  | BuildValue =>
      forall (n : Z) (p : ptr),
        wrapLongInt n m = Undefined /\
        wrapString p m = Undefined /\
        wrapDouble n m = Undefined /\
        wrapObject p m = Undefined
  | AsUTF8 => forall p, stringFromPythonObject p m = Undefined
  | FromString =>
      forall u,
        getPyUnicode_FromString u m =
        Exits 1 (after_printf m
                   ("Lambda functions not available on Python 2!" ++ LF)%string [])
  | BoolFromLong => forall n, wrapBool n m = Undefined
  | NewEx => forall ml data, createPyCFunction ml data m = Undefined
  end.

End Vocabulary.

(** ** Two stub runtimes *)

(** A loaded image at [libpython] with the six entry points at fixed
    addresses; the Python 2 flavour lacks [PyUnicode_FromString] and
    [PyUnicode_AsUTF8]. *)
Definition libpython : ptr := 0x7f0000.

Definition stub_symbols (py2 : bool) (h : ptr) (name : string) : ptr :=
  if negb (Z.eqb h libpython) then NULL
  else if String.eqb name "PyArg_ParseTuple" then 0x1000
  else if String.eqb name "Py_BuildValue" then 0x2000
  else if String.eqb name "PyUnicode_AsUTF8" then (if py2 then NULL else 0x3000)
  else if String.eqb name "PyUnicode_FromString" then (if py2 then NULL else 0x4000)
  else if String.eqb name "PyBool_FromLong" then 0x5000
  else if String.eqb name "PyCFunction_NewEx" then 0x6000
  else NULL.

(** The bit pattern of the double nearest to 3.14. *)
Definition bits_3_14 : Z := 0x40091EB851EB851F.

(** The stub counts the calls it served.  Its [PyArg_ParseTuple] fills one,
    two or three cells and answers 1; its [PyBool_FromLong] answers one of
    two tokens; the others answer an address that depends on the count. *)
Definition stub_invoke (f : ptr) (args : list cval) (served : nat)
  : nat * reply :=
  (S served,
   if Z.eqb f 0x1000 then
     match args with
     | [VPtr _; VStr fmt; VRef i] =>
         if String.eqb fmt "d" then mkReply 1 [(i, VDouble bits_3_14)]
         else if String.eqb fmt "l" then mkReply 1 [(i, VLong 42)]
         else if String.eqb fmt "s" then mkReply 1 [(i, VPtr 0x9100)]
         else if String.eqb fmt "O" then mkReply 1 [(i, VPtr 0xA000)]
         else mkReply 0 []
     | [VPtr _; VStr _; VRef i; VRef j] =>
         mkReply 1 [(i, VPtr 0xA001); (j, VPtr 0xA002)]
     | [VPtr _; VStr _; VRef i; VRef j; VRef k] =>
         mkReply 1 [(i, VPtr 0xA001); (j, VPtr 0xA002); (k, VPtr 0xA003)]
     | _ => mkReply 0 []
     end
   else if Z.eqb f 0x5000 then
     match args with
     | [VLong n] => mkReply (if Z.eqb n 0 then 0xF000 else 0xF001) []
     | _ => mkReply 0 []
     end
   else mkReply (0xB000 + Z.of_nat served) []).

Definition python3_posix : Runtime :=
  {| world := nat; WIN32 := false;
     symbol_address := stub_symbols false; invoke := stub_invoke |}.

Definition python2_posix : Runtime :=
  {| world := nat; WIN32 := false;
     symbol_address := stub_symbols true; invoke := stub_invoke |}.

Definition python3_windows : Runtime :=
  {| world := nat; WIN32 := true;
     symbol_address := stub_symbols false; invoke := stub_invoke |}.

(** The machine when the library has just been loaded, and after a
    successful initialisation against each flavour. *)
Definition at_load (RT : Runtime) (w : @world RT) : @machine RT :=
  mkMachine slots_at_load w [].

Definition ready3 : @machine python3_posix :=
  @mkMachine python3_posix
            (mkSlots libpython 0x1000 0x2000 0x3000 0x4000 0x6000 0x5000)
            0%nat (lookups libpython).

Definition ready2 : @machine python2_posix :=
  @mkMachine python2_posix
            (mkSlots libpython 0x1000 0x2000 NULL NULL 0x6000 0x5000)
            0%nat (lookups libpython).

(** ** Vocabulary of the further properties *)

Section Composition.

Context {RT : Runtime}.

(** The machine one initialisation against [h] leaves behind. *)
Definition after_init (h : ptr) (m : machine) : machine :=
  mkMachine
    (mkSlots h
             (symbol_address h "PyArg_ParseTuple")
             (symbol_address h "Py_BuildValue")
             (symbol_address h "PyUnicode_AsUTF8")
             (symbol_address h "PyUnicode_FromString")
             (symbol_address h "PyCFunction_NewEx")
             (symbol_address h "PyBool_FromLong"))
    (python m)
    (trace m ++ lookups h).

(** The value a computation hands to its caller, when it returns. *)
Definition returned {A} (o : outcome A) : option A :=
  match o with
  | Returns a _ => Some a
  | Exits _ _ => None
  | Undefined => None
  end.

(** The callee made no store to automatic [i]. *)
Definition untouched (i : nat) (stores : list (nat * cval)) : Prop :=
  forall s, In s stores -> fst s <> i.

(** Initialising against [h] and then running [c] returns, and the events
    are the six lookups followed by one call, made at the address that
    [name] has in [h], with arguments [args]. *)
Definition initialised_then_calls {A} (c : M A) (h : ptr) (name : string)
           (args : list cval) (m : machine) : Prop :=
  exists a m',
    (initialisePythonLibrary h ;; c) m = Returns a m' /\
    globals m' = globals (after_init h m) /\
    trace m' =
    trace m ++ lookups h ++ [EvCall (symbol_address h name) args].

End Composition.

(** A runtime whose [PyArg_ParseTuple] rejects every tuple: it answers 0
    and stores nothing. *)
Definition stub_invoke_rejecting (f : ptr) (args : list cval) (served : nat)
  : nat * reply :=
  (S served, mkReply 0 []).

Definition python3_rejecting : Runtime :=
  {| world := nat; WIN32 := false;
     symbol_address := stub_symbols false; invoke := stub_invoke_rejecting |}.

Definition ready_rejecting : @machine python3_rejecting :=
  @mkMachine python3_rejecting
            (mkSlots libpython 0x1000 0x2000 0x3000 0x4000 0x6000 0x5000)
            0%nat (lookups libpython).

(** ** Basic facts *)

Lemma int_of_raw_id (z : Z) :
  - 2 ^ 31 <= z < 2 ^ 31 -> int_of_raw z = z.
Proof.
  intros Hz. unfold int_of_raw.
  rewrite Z.mod_small by lia. lia.
Qed.

Lemma int_of_raw_range (z : Z) : - 2 ^ 31 <= int_of_raw z < 2 ^ 31.
Proof.
  unfold int_of_raw.
  pose proof (Z.mod_pos_bound (z + 2 ^ 31) (2 ^ 32) ltac:(lia)). lia.
Qed.

Lemma cell_snoc (i : nat) (stores : list (nat * cval)) (v : cval) :
  cell i (stores ++ [(i, v)]) = v.
Proof.
  unfold cell. rewrite fold_left_app. simpl. now rewrite Nat.eqb_refl.
Qed.

Lemma cell_untouched (i : nat) (stores : list (nat * cval)) :
  (forall s, In s stores -> fst s <> i) -> cell i stores = Vundef.
Proof.
  unfold cell. generalize Vundef as c0.
  induction stores as [|s rest IH]; intros c0 Hno; simpl.
  - reflexivity.
  - destruct (Nat.eqb_spec (fst s) i) as [E|_].
    + exfalso. apply (Hno s); [now left | exact E].
    + apply IH. intros s' Hin. apply Hno. now right.
Qed.

Section Properties.

Context {RT : Runtime}.

Lemma call_null (args : list cval) (m : machine) :
  call NULL args m = Undefined.
Proof. reflexivity. Qed.

Lemma call_defined (f : ptr) (args : list cval) (m : machine) :
  f <> NULL ->
  call f args m = Returns (answer m f args) (after_call m f args).
Proof.
  intros Hf. unfold call.
  destruct (Z.eqb_spec f NULL) as [E|_]; [contradiction | reflexivity].
Qed.

(** The shape shared by the functions that read a pointer variable, call
    through it once and return something computed from the reply. *)
Lemma delegate_defined {A} (var : slots -> ptr) (args : list cval)
      (g : reply -> A) (m : machine) :
  var (globals m) <> NULL ->
  (f <- load var ;; r <- call f args ;; ret (g r)) m =
  Returns (g (answer m (var (globals m)) args))
          (after_call m (var (globals m)) args).
Proof.
  intros Hf. unfold bind at 1. unfold load.
  unfold bind. now rewrite call_defined.
Qed.

Lemma delegate_null {A} (var : slots -> ptr) (args : list cval)
      (g : reply -> A) (m : machine) :
  var (globals m) = NULL ->
  (f <- load var ;; r <- call f args ;; ret (g r)) m = Undefined.
Proof.
  intros Hf. unfold bind at 1. unfold load.
  unfold bind. now rewrite Hf, call_null.
Qed.

(** One run of the initialiser, whichever branch is compiled. *)
Lemma initialisePythonLibrary_run (h : ptr) (m : machine) :
  initialisePythonLibrary h m =
  Returns None
    (mkMachine
       (mkSlots h
                (symbol_address h "PyArg_ParseTuple")
                (symbol_address h "Py_BuildValue")
                (symbol_address h "PyUnicode_AsUTF8")
                (symbol_address h "PyUnicode_FromString")
                (symbol_address h "PyCFunction_NewEx")
                (symbol_address h "PyBool_FromLong"))
       (python m)
       (trace m ++ lookups h)).
Proof.
  unfold initialisePythonLibrary, lookups, all_roles.
  destruct WIN32; lazy -[app symbol_address];
    repeat rewrite <- app_assoc; reflexivity.
Qed.

(** ** The initialiser *)

(** C1.  For every handle, [initialisePythonLibrary] looks each of the six
    names up in that handle, once and in program order, and afterwards
    every pointer variable holds the lookup result for its own name (and
    the handle variable holds the handle). *)
Theorem initialisePythonLibrary_resolves (h : ptr) (m : machine) :
  exists m',
    initialisePythonLibrary h m = Returns None m' /\
    (forall r, slot r (globals m') = symbol_address h (symbol_name r)) /\
    _pythonLibraryHandle (globals m') = h /\
    python m' = python m /\
    trace m' =
    trace m ++
      [EvLookup h "PyArg_ParseTuple"; EvLookup h "Py_BuildValue";
       EvLookup h "PyUnicode_AsUTF8"; EvLookup h "PyUnicode_FromString";
       EvLookup h "PyBool_FromLong"; EvLookup h "PyCFunction_NewEx"].
Proof.
  eexists. split; [apply initialisePythonLibrary_run |].
  repeat split. intros r. destruct r; reflexivity.
Qed.

(** C5.  When the library lacks one of the six symbols, the initialiser
    still returns normally, having printed nothing and done only its six
    lookups; the variable of that symbol is null afterwards; the failure
    shows when a function that calls through that variable is used. *)
Theorem initialisePythonLibrary_absent_symbol
        (h : ptr) (r : role) (m : machine) :
  symbol_address h (symbol_name r) = NULL ->
  exists m',
    initialisePythonLibrary h m = Returns None m' /\
    slot r (globals m') = NULL /\
    trace m' = trace m ++ lookups h /\
    use_fails r m'.
Proof.
  intros Habs. eexists. split; [apply initialisePythonLibrary_run |].
  assert (Hslot : slot r
            (mkSlots h
                (symbol_address h "PyArg_ParseTuple")
                (symbol_address h "Py_BuildValue")
                (symbol_address h "PyUnicode_AsUTF8")
                (symbol_address h "PyUnicode_FromString")
                (symbol_address h "PyCFunction_NewEx")
                (symbol_address h "PyBool_FromLong")) = NULL)
    by (destruct r; exact Habs).
  split; [exact Hslot |]. split; [reflexivity |].
  destruct r; cbn in Hslot; cbn [use_fails]; intros.
  - repeat split; apply delegate_null; exact Hslot.
  - repeat split; apply delegate_null; exact Hslot.
  - apply delegate_null; exact Hslot.
  - unfold getPyUnicode_FromString, bind, load; cbn.
    rewrite Hslot. reflexivity.
  - apply delegate_null; exact Hslot.
  - apply delegate_null; exact Hslot.
Qed.

(** C6.  Calling the initialiser twice in succession with the same handle
    leaves the six pointer variables and the handle variable exactly as
    one call does: the second call resolves the same names again and
    overwrites every variable with the same value. *)
Theorem initialisePythonLibrary_idempotent (h : ptr) (m : machine) :
  exists m1 m2,
    initialisePythonLibrary h m = Returns None m1 /\
    initialisePythonLibrary h m1 = Returns None m2 /\
    globals m2 = globals m1 /\
    python m2 = python m1 /\
    trace m2 = trace m1 ++ lookups h.
Proof.
  do 2 eexists. split; [apply initialisePythonLibrary_run |].
  split; [apply initialisePythonLibrary_run |].
  repeat split.
Qed.

(** C7.  The header declares [initialisePythonLibrary] with result type
    [int], but no run of the body produces a value: every call returns to the caller
    without one, whatever the handle and the lookups. *)
Theorem initialisePythonLibrary_returns_no_value (h : ptr) (m : machine) :
  (exists m', initialisePythonLibrary h m = Returns None m') /\
  (forall (status : Z) m',
      initialisePythonLibrary h m <> Returns (Some status) m').
Proof.
  rewrite initialisePythonLibrary_run. split.
  - eexists. reflexivity.
  - intros status m' H. discriminate H.
Qed.

(** ** The parse functions *)

(** C2.  With [PyArg_ParseTuple] resolved, each of the six parse functions
    makes exactly one call, through that pointer, with the argument tuple,
    the format of its kind (["s"], ["d"], ["l"], ["O"], ["OO"], ["OOO"]) and
    the addresses of its one, two or three automatics; it returns what the
    callee stored in the first automatic, hands the second and third out
    through [objectB] and [objectC], and sets [error] to the [int] the
    callee returned (the returned number itself, whenever it is an [int]). *)
Theorem parse_delegates_once (args : ptr) (m : machine) :
  let f := pyarg_parsetuple (globals m) in
  let run fmt refs := answer m f (VPtr args :: VStr fmt :: refs) in
  let next fmt refs := after_call m f (VPtr args :: VStr fmt :: refs) in
  let status fmt refs := long_of_int (int_of_raw (r_ret (run fmt refs))) in
  let out i fmt refs := cell i (r_stores (run fmt refs)) in
  f <> NULL ->
  parseArgsToString args m =
    Returns (out 0%nat "s" [VRef 0], status "s" [VRef 0])
            (next "s" [VRef 0]) /\
  parseArgsToDouble args m =
    Returns (out 0%nat "d" [VRef 0], status "d" [VRef 0])
            (next "d" [VRef 0]) /\
  parseArgsToLongInt args m =
    Returns (out 0%nat "l" [VRef 0], status "l" [VRef 0])
            (next "l" [VRef 0]) /\
  parseArgsToObject args m =
    Returns (out 0%nat "O" [VRef 0], status "O" [VRef 0])
            (next "O" [VRef 0]) /\
  parseArgsToObjectPair args m =
    Returns (out 0%nat "OO" [VRef 0; VRef 1],
             out 1%nat "OO" [VRef 0; VRef 1],
             status "OO" [VRef 0; VRef 1])
            (next "OO" [VRef 0; VRef 1]) /\
  parseArgsToObjectTriple args m =
    Returns (out 0%nat "OOO" [VRef 0; VRef 1; VRef 2],
             out 1%nat "OOO" [VRef 0; VRef 1; VRef 2],
             out 2%nat "OOO" [VRef 0; VRef 1; VRef 2],
             status "OOO" [VRef 0; VRef 1; VRef 2])
            (next "OOO" [VRef 0; VRef 1; VRef 2]) /\
  (forall fmt refs,
      - 2 ^ 31 <= r_ret (run fmt refs) < 2 ^ 31 ->
      status fmt refs = r_ret (run fmt refs)).
Proof.
  intros f run next status out Hf.
  subst f run next status out. cbv beta.
  unfold parseArgsToString, parseArgsToDouble, parseArgsToLongInt,
    parseArgsToObject, parseArgsToObjectPair, parseArgsToObjectTriple.
  cbv zeta.
  repeat match goal with |- _ /\ _ => split end;
    [ | | | | | | intros fmt refs Hr; exact (int_of_raw_id _ Hr) ].
  - exact (delegate_defined pyarg_parsetuple _
             (fun r => (cell 0 (r_stores r), long_of_int (int_of_raw (r_ret r))))
             m Hf).
  - exact (delegate_defined pyarg_parsetuple _
             (fun r => (cell 0 (r_stores r), long_of_int (int_of_raw (r_ret r))))
             m Hf).
  - exact (delegate_defined pyarg_parsetuple _
             (fun r => (cell 0 (r_stores r), long_of_int (int_of_raw (r_ret r))))
             m Hf).
  - exact (delegate_defined pyarg_parsetuple _
             (fun r => (cell 0 (r_stores r), long_of_int (int_of_raw (r_ret r))))
             m Hf).
  - exact (delegate_defined pyarg_parsetuple _
             (fun r => (cell 0 (r_stores r), cell 1 (r_stores r),
                        long_of_int (int_of_raw (r_ret r))))
             m Hf).
  - exact (delegate_defined pyarg_parsetuple _
             (fun r => (cell 0 (r_stores r), cell 1 (r_stores r),
                        cell 2 (r_stores r),
                        long_of_int (int_of_raw (r_ret r))))
             m Hf).
Qed.

(** ** The wrap functions *)

(** C3.  With its entry point resolved, each wrap function makes exactly
    one call: [wrapLongInt], [wrapString], [wrapDouble] and [wrapObject]
    through [Py_BuildValue] with the format ["l"], ["s"], ["d"], ["O"] and
    the given value, [wrapBool] through [PyBool_FromLong] with the given
    value alone (that entry point takes no format); each returns the
    callee's result as it came. *)
Theorem wrap_delegates_once (n : Z) (p : ptr) (m : machine) :
  let build := py_buildvalue (globals m) in
  let bool := py_boolfromlong (globals m) in
  (build <> NULL ->
   wrapLongInt n m =
     Returns (r_ret (answer m build [VStr "l"; VLong n]))
             (after_call m build [VStr "l"; VLong n]) /\
   wrapString p m =
     Returns (r_ret (answer m build [VStr "s"; VPtr p]))
             (after_call m build [VStr "s"; VPtr p]) /\
   wrapDouble n m =
     Returns (r_ret (answer m build [VStr "d"; VDouble n]))
             (after_call m build [VStr "d"; VDouble n]) /\
   wrapObject p m =
     Returns (r_ret (answer m build [VStr "O"; VPtr p]))
             (after_call m build [VStr "O"; VPtr p])) /\
  (bool <> NULL ->
   wrapBool n m =
     Returns (r_ret (answer m bool [VLong n]))
             (after_call m bool [VLong n])).
Proof.
  cbv zeta. split; intros Hf.
  - repeat split; exact (delegate_defined py_buildvalue _ r_ret m Hf).
  - exact (delegate_defined py_boolfromlong _ r_ret m Hf).
Qed.

(** ** The guarded function *)

(** C4.  [getPyUnicode_FromString] tests its pointer first.  When
    [PyUnicode_FromString] is unresolved it prints the diagnostic and ends
    the process with status 1, making no call; otherwise it makes one call
    through the pointer with the given string and returns the result. *)
Theorem getPyUnicode_FromString_guarded (u : ptr) (m : machine) :
  let f := pyunicode_fromstring (globals m) in
  (f = NULL ->
   getPyUnicode_FromString u m =
     Exits 1 (after_printf m
                ("Lambda functions not available on Python 2!" ++ LF)%string
                [])) /\
  (f <> NULL ->
   getPyUnicode_FromString u m =
     Returns (r_ret (answer m f [VPtr u])) (after_call m f [VPtr u])).
Proof.
  cbv zeta. unfold getPyUnicode_FromString. split; intros Hf.
  - unfold bind, load. rewrite Hf. reflexivity.
  - unfold bind at 1. unfold load at 1.
    destruct (Z.eqb_spec (pyunicode_fromstring (globals m)) NULL) as [E|_];
      [contradiction |].
    unfold bind at 1. unfold ret at 1.
    exact (delegate_defined pyunicode_fromstring _ r_ret m Hf).
Qed.

(** ** Unresolved entry points *)

(** C8.  Apart from [getPyUnicode_FromString], no function tests its
    pointer: with the pointer of role [r] null, every function that calls
    through it has undefined behaviour, whatever its arguments. *)
Theorem unresolved_call_is_undefined (r : role) (m : machine) :
  r <> FromString ->
  slot r (globals m) = NULL ->
  match r with
  | ParseTuple =>
      forall args,
        parseArgsToString args m = Undefined /\
        parseArgsToDouble args m = Undefined /\
        parseArgsToLongInt args m = Undefined /\
        parseArgsToObject args m = Undefined /\
        parseArgsToObjectPair args m = Undefined /\
        parseArgsToObjectTriple args m = Undefined
  | BuildValue =>
      forall (n : Z) (p : ptr),
        wrapLongInt n m = Undefined /\
        wrapString p m = Undefined /\
        wrapDouble n m = Undefined /\
        wrapObject p m = Undefined
  | AsUTF8 => forall p, stringFromPythonObject p m = Undefined
  | BoolFromLong => forall n, wrapBool n m = Undefined
  | NewEx => forall ml data, createPyCFunction ml data m = Undefined
  | FromString => True
  end.
Proof.
  intros Hr Hnull.
  destruct r; cbn in Hnull; intros;
    try exact I; repeat split; apply delegate_null; exact Hnull.
Qed.

(** ** Building a function object *)

(** C10.  With [PyCFunction_NewEx] resolved, [createPyCFunction] makes one
    call through it with the caller's method definition and data object
    followed by a null third argument, and returns the result as it came.
    The function has two parameters: whatever they are, the module
    argument of the call is [NULL]. *)
Theorem createPyCFunction_null_module (ml data : ptr) (m : machine) :
  let f := py_createPyCFunction (globals m) in
  f <> NULL ->
  createPyCFunction ml data m =
    Returns (r_ret (answer m f [VPtr ml; VPtr data; VPtr NULL]))
            (after_call m f [VPtr ml; VPtr data; VPtr NULL]).
Proof.
  cbv zeta. intros Hf.
  exact (delegate_defined py_createPyCFunction _ r_ret m Hf).
Qed.

(** ** What the shim functions touch *)

Lemma delegate_only_one_call {A} (var : slots -> ptr) (args : list cval)
      (g : reply -> A) (m : machine) :
  var (globals m) <> NULL ->
  only_one_call (f <- load var ;; r <- call f args ;; ret (g r)) m.
Proof.
  intros Hf. unfold only_one_call.
  exists (g (answer m (var (globals m)) args)),
         (after_call m (var (globals m)) args),
         (var (globals m)), args.
  split; [apply delegate_defined; exact Hf | split; reflexivity].
Qed.

(** C9, as the code has it.  No shim function assigns a file-scope
    variable, and none allocates or frees.  A function whose entry point is
    resolved returns after exactly one event, its call through that
    pointer.  The two exceptions make no call: [getPyUnicode_FromString]
    with its pointer null prints the diagnostic and ends the process, and
    [debug_showAddress] prints one line and returns. *)
Theorem shim_effects (m : machine) :
  (pyarg_parsetuple (globals m) <> NULL ->
   forall args,
     only_one_call (parseArgsToString args) m /\
     only_one_call (parseArgsToDouble args) m /\
     only_one_call (parseArgsToLongInt args) m /\
     only_one_call (parseArgsToObject args) m /\
     only_one_call (parseArgsToObjectPair args) m /\
     only_one_call (parseArgsToObjectTriple args) m) /\
  (py_buildvalue (globals m) <> NULL ->
   forall (n : Z) (p : ptr),
     only_one_call (wrapLongInt n) m /\
     only_one_call (wrapString p) m /\
     only_one_call (wrapDouble n) m /\
     only_one_call (wrapObject p) m) /\
  (py_boolfromlong (globals m) <> NULL ->
   forall n, only_one_call (wrapBool n) m) /\
  (pyunicode_asutf8 (globals m) <> NULL ->
   forall p, only_one_call (stringFromPythonObject p) m) /\
  (py_createPyCFunction (globals m) <> NULL ->
   forall ml data, only_one_call (createPyCFunction ml data) m) /\
  (pyunicode_fromstring (globals m) <> NULL ->
   forall u, only_one_call (getPyUnicode_FromString u) m) /\
  (pyunicode_fromstring (globals m) = NULL ->
   forall u,
     getPyUnicode_FromString u m =
     Exits 1 (after_printf m
                ("Lambda functions not available on Python 2!" ++ LF)%string
                [])) /\
  (forall varName value,
     debug_showAddress varName value m =
     Returns tt (after_printf m
                   ("variable %s has value %#llx" ++ LF)%string
                   [VPtr varName; VULongLong (ull_of_ptr value)])).
Proof.
  repeat match goal with |- _ /\ _ => split end.
  - intros Hf args.
    unfold parseArgsToString, parseArgsToDouble, parseArgsToLongInt,
      parseArgsToObject, parseArgsToObjectPair, parseArgsToObjectTriple.
    cbv zeta.
    repeat split; apply delegate_only_one_call; exact Hf.
  - intros Hf n p.
    unfold wrapLongInt, wrapString, wrapDouble, wrapObject. cbv zeta.
    repeat split; apply delegate_only_one_call; exact Hf.
  - intros Hf n. unfold wrapBool. cbv zeta.
    apply delegate_only_one_call; exact Hf.
  - intros Hf p. apply (delegate_only_one_call pyunicode_asutf8 _ r_ret m Hf).
  - intros Hf ml data.
    apply (delegate_only_one_call py_createPyCFunction _ r_ret m Hf).
  - intros Hf u. unfold getPyUnicode_FromString, only_one_call.
    unfold bind at 1. unfold load at 1.
    destruct (Z.eqb_spec (pyunicode_fromstring (globals m)) NULL) as [E|_];
      [contradiction |].
    unfold bind at 1. unfold ret at 1.
    apply (delegate_only_one_call pyunicode_fromstring _ r_ret m Hf).
  - intros Hf u. unfold getPyUnicode_FromString, bind, load.
    rewrite Hf. reflexivity.
  - intros varName value. reflexivity.
Qed.

End Properties.

(** ** Runs against the stub runtimes *)

(** The double parse of the stub: the pair (3.14, 1), one call logged. *)
Lemma parse_delegates_once_witness :
  pyarg_parsetuple (globals ready3) <> NULL /\
  parseArgsToDouble 0x8000 ready3 =
    Returns (VDouble bits_3_14, 1)
            (@mkMachine python3_posix (globals ready3) 1%nat
               (trace ready3 ++
                  [EvCall 0x1000 [VPtr 0x8000; VStr "d"; VRef 0]])) /\
  parseArgsToObjectTriple 0x8000 ready3 =
    Returns (VPtr 0xA001, VPtr 0xA002, VPtr 0xA003, 1)
            (@mkMachine python3_posix (globals ready3) 1%nat
               (trace ready3 ++
                  [EvCall 0x1000
                     [VPtr 0x8000; VStr "OOO"; VRef 0; VRef 1; VRef 2]])).
Proof.
  assert (H : pyarg_parsetuple (globals ready3) <> NULL)
    by (vm_compute; lia).
  split; [exact H |].
  destruct (parse_delegates_once 0x8000 ready3 H)
    as (_ & Hd & _ & _ & _ & Ht & _).
  split; [rewrite Hd | rewrite Ht]; reflexivity.
Defined.

(** The stub's [PyBool_FromLong] answers its token for 0; [wrapBool 0]
    returns that token. *)
Lemma wrap_delegates_once_witness :
  py_buildvalue (globals ready3) <> NULL /\
  py_boolfromlong (globals ready3) <> NULL /\
  wrapBool 0 ready3 =
    Returns 0xF000
            (@mkMachine python3_posix (globals ready3) 1%nat
               (trace ready3 ++ [EvCall 0x5000 [VLong 0]])) /\
  wrapDouble bits_3_14 ready3 =
    Returns 0xB000
            (@mkMachine python3_posix (globals ready3) 1%nat
               (trace ready3 ++
                  [EvCall 0x2000 [VStr "d"; VDouble bits_3_14]])).
Proof.
  assert (Hb : py_buildvalue (globals ready3) <> NULL) by (vm_compute; lia).
  assert (Hl : py_boolfromlong (globals ready3) <> NULL) by (vm_compute; lia).
  split; [exact Hb |]. split; [exact Hl |].
  destruct (wrap_delegates_once bits_3_14 0x9100 ready3) as (Hbuild & _).
  destruct (wrap_delegates_once 0 0x9100 ready3) as (_ & Hbool).
  destruct (Hbuild Hb) as (_ & _ & Hd & _).
  split; [rewrite (Hbool Hl) | rewrite Hd]; reflexivity.
Defined.

(** Under the Python 2 stub the guard fires; under the Python 3 stub the
    call goes through. *)
Lemma getPyUnicode_FromString_guarded_witness :
  pyunicode_fromstring (globals ready2) = NULL /\
  getPyUnicode_FromString 0x9100 ready2 =
    Exits 1
          (@mkMachine python2_posix (globals ready2) 0%nat
             (trace ready2 ++
                [EvPrintf
                   ("Lambda functions not available on Python 2!" ++ LF)%string
                   []])) /\
  pyunicode_fromstring (globals ready3) <> NULL /\
  getPyUnicode_FromString 0x9100 ready3 =
    Returns 0xB000
            (@mkMachine python3_posix (globals ready3) 1%nat
               (trace ready3 ++ [EvCall 0x4000 [VPtr 0x9100]])).
Proof.
  assert (H2 : pyunicode_fromstring (globals ready2) = NULL) by reflexivity.
  assert (H3 : pyunicode_fromstring (globals ready3) <> NULL)
    by (vm_compute; lia).
  split; [exact H2 |].
  split; [rewrite (proj1 (getPyUnicode_FromString_guarded 0x9100 ready2) H2);
          reflexivity |].
  split; [exact H3 |].
  rewrite (proj2 (getPyUnicode_FromString_guarded 0x9100 ready3) H3).
  reflexivity.
Defined.

(** The Python 2 image lacks [PyUnicode_FromString]: initialisation
    returns, and the variable is null. *)
Lemma initialisePythonLibrary_absent_symbol_witness :
  @symbol_address python2_posix libpython (symbol_name FromString) = NULL /\
  exists m',
    initialisePythonLibrary libpython (at_load python2_posix 0%nat) =
      Returns None m' /\
    slot FromString (globals m') = NULL /\
    trace m' = trace (at_load python2_posix 0%nat) ++ lookups libpython /\
    use_fails FromString m'.
Proof.
  split; [reflexivity |].
  apply initialisePythonLibrary_absent_symbol. reflexivity.
Defined.

(** Before any initialisation every pointer is null: a wrap call is
    undefined. *)
Lemma unresolved_call_is_undefined_witness :
  BuildValue <> FromString /\
  slot BuildValue (globals (at_load python3_posix 0%nat)) = NULL /\
  wrapDouble bits_3_14 (at_load python3_posix 0%nat) = Undefined /\
  wrapString 0x9100 (at_load python3_posix 0%nat) = Undefined.
Proof.
  assert (Hr : BuildValue <> FromString) by (intros E; discriminate E).
  split; [exact Hr |]. split; [reflexivity |].
  destruct (unresolved_call_is_undefined BuildValue
              (at_load python3_posix 0%nat) Hr eq_refl bits_3_14 0x9100)
    as (_ & Hs & Hd & _).
  split; [exact Hd | exact Hs].
Defined.

Lemma createPyCFunction_null_module_witness :
  py_createPyCFunction (globals ready3) <> NULL /\
  createPyCFunction 0x7000 0xA000 ready3 =
    Returns 0xB000
            (@mkMachine python3_posix (globals ready3) 1%nat
               (trace ready3 ++
                  [EvCall 0x6000 [VPtr 0x7000; VPtr 0xA000; VPtr NULL]])).
Proof.
  assert (H : py_createPyCFunction (globals ready3) <> NULL)
    by (vm_compute; lia).
  split; [exact H |].
  rewrite (createPyCFunction_null_module 0x7000 0xA000 ready3 H).
  reflexivity.
Defined.

(** C9 as written fails: two shim functions have an effect that is no
    call through a pointer.  With [PyUnicode_FromString] unresolved,
    [getPyUnicode_FromString] prints and exits; [debug_showAddress] prints. *)
Lemma shim_effect_beyond_call :
  ~ no_effect_beyond_call (getPyUnicode_FromString 0x9100) ready2 /\
  ~ no_effect_beyond_call (debug_showAddress 0x9100 0x1000)
      (at_load python3_posix 0%nat).
Proof.
  split.
  - vm_compute. intros [].
  - unfold no_effect_beyond_call. cbn.
    intros [_ (f & args & H)]. discriminate H.
Qed.

Lemma shim_effects_witness :
  pyarg_parsetuple (globals ready3) <> NULL /\
  only_one_call (parseArgsToLongInt 0x8000) ready3 /\
  py_buildvalue (globals ready3) <> NULL /\
  only_one_call (wrapString 0x9100) ready3 /\
  pyunicode_fromstring (globals ready2) = NULL /\
  getPyUnicode_FromString 0x9100 ready2 =
    Exits 1 (after_printf ready2
               ("Lambda functions not available on Python 2!" ++ LF)%string
               []).
Proof.
  assert (Hp : pyarg_parsetuple (globals ready3) <> NULL) by (vm_compute; lia).
  assert (Hb : py_buildvalue (globals ready3) <> NULL) by (vm_compute; lia).
  assert (H2 : pyunicode_fromstring (globals ready2) = NULL) by reflexivity.
  destruct (shim_effects ready3) as (Hparse & Hbuild & _).
  destruct (shim_effects ready2) as (_ & _ & _ & _ & _ & _ & Hexit & _).
  destruct (Hparse Hp 0x8000) as (_ & _ & Hl & _).
  destruct (Hbuild Hb 0 0x9100) as (_ & Hs & _).
  split; [exact Hp |]. split; [exact Hl |].
  split; [exact Hb |]. split; [exact Hs |].
  split; [exact H2 | exact (Hexit H2 0x9100)].
Defined.

(** The two ready machines are what initialisation reaches from the loaded
    state, and the Windows branch reaches the same variables as the POSIX
    one. *)
Example ready3_reached :
  initialisePythonLibrary libpython (at_load python3_posix 0%nat) =
  Returns None ready3.
Proof. vm_compute. reflexivity. Qed.

Example ready2_reached :
  initialisePythonLibrary libpython (at_load python2_posix 0%nat) =
  Returns None ready2.
Proof. vm_compute. reflexivity. Qed.

Example windows_branch_reaches_same_slots :
  initialisePythonLibrary libpython (at_load python3_windows 0%nat) =
  Returns None
          (@mkMachine python3_windows (globals ready3) 0%nat
             (lookups libpython)).
Proof. vm_compute. reflexivity. Qed.

(** ** Further properties of the shim *)

Section Further.

Context {RT : Runtime}.

Lemma bind_initialisePythonLibrary {A} (c : M A) (h : ptr) (m : machine) :
  (initialisePythonLibrary h ;; c) m = c (after_init h m).
Proof.
  unfold bind. rewrite initialisePythonLibrary_run. reflexivity.
Qed.

Lemma init_then_delegate {A} (var : slots -> ptr) (name : string)
      (args : list cval) (g : reply -> A) (h : ptr) (m : machine) :
  var (globals (after_init h m)) = symbol_address h name ->
  symbol_address h name <> NULL ->
  initialised_then_calls (f <- load var ;; r <- call f args ;; ret (g r))
                         h name args m.
Proof.
  intros Hvar Hf. unfold initialised_then_calls.
  rewrite bind_initialisePythonLibrary.
  rewrite delegate_defined by (rewrite Hvar; exact Hf).
  do 2 eexists. split; [reflexivity |]. split; [reflexivity |].
  cbn [after_call trace]. rewrite Hvar.
  unfold after_init. cbn [trace]. now rewrite <- app_assoc.
Qed.

Lemma guarded_defined (u : ptr) (m : machine) :
  pyunicode_fromstring (globals m) <> NULL ->
  getPyUnicode_FromString u m =
  Returns (r_ret (answer m (pyunicode_fromstring (globals m)) [VPtr u]))
          (after_call m (pyunicode_fromstring (globals m)) [VPtr u]).
Proof.
  intros Hf. unfold getPyUnicode_FromString.
  unfold bind at 1. unfold load at 1.
  destruct (Z.eqb_spec (pyunicode_fromstring (globals m)) NULL) as [E|_];
    [contradiction |].
  unfold bind at 1. unfold ret at 1.
  exact (delegate_defined pyunicode_fromstring _ r_ret m Hf).
Qed.


(** X1.  With [PyUnicode_AsUTF8] resolved, [stringFromPythonObject] makes
    exactly one call, through that pointer, with the object alone, and
    returns the C string the callee answered; the file-scope variables are
    as before. *)
Theorem stringFromPythonObject_delegates_once (p : ptr) (m : machine) :
  let f := pyunicode_asutf8 (globals m) in
  f <> NULL ->
  stringFromPythonObject p m =
    Returns (r_ret (answer m f [VPtr p])) (after_call m f [VPtr p]).
Proof.
  cbv zeta. intros Hf.
  exact (delegate_defined pyunicode_asutf8 _ r_ret m Hf).
Qed.

(** X2.  The last initialisation wins.  Initialising against [h1] and then
    against [h2] leaves exactly the variables that initialising against
    [h2] alone leaves, whatever [h1] resolved: no pointer of the first
    library survives, not even where the second library lacks the symbol.
    Twelve lookups are made, the first six against [h1]. *)
Theorem last_initialisation_wins (h1 h2 : ptr) (m : machine) :
  exists m12 m2,
    (initialisePythonLibrary h1 ;; initialisePythonLibrary h2) m =
      Returns None m12 /\
    initialisePythonLibrary h2 m = Returns None m2 /\
    globals m12 = globals m2 /\
    python m12 = python m /\
    trace m12 = trace m ++ lookups h1 ++ lookups h2.
Proof.
  do 2 eexists.
  split; [rewrite bind_initialisePythonLibrary;
          apply initialisePythonLibrary_run |].
  split; [apply initialisePythonLibrary_run |].
  split; [reflexivity |]. split; [reflexivity |].
  unfold after_init. cbn [trace]. now rewrite <- app_assoc.
Qed.

(** X3.  Each function is bound to its own symbol.  After an
    initialisation against [h], a shim function calls the address that
    the name of its entry point has in [h]: the parse functions
    [PyArg_ParseTuple], the four value wraps [Py_BuildValue], [wrapBool]
    [PyBool_FromLong], [stringFromPythonObject] [PyUnicode_AsUTF8],
    [getPyUnicode_FromString] [PyUnicode_FromString] and
    [createPyCFunction] [PyCFunction_NewEx]. *)
Theorem each_function_calls_its_own_symbol (h : ptr) (m : machine) :
  (symbol_address h "PyArg_ParseTuple" <> NULL ->
   forall args,
     initialised_then_calls (parseArgsToString args) h "PyArg_ParseTuple"
       [VPtr args; VStr "s"; VRef 0] m /\
     initialised_then_calls (parseArgsToDouble args) h "PyArg_ParseTuple"
       [VPtr args; VStr "d"; VRef 0] m /\
     initialised_then_calls (parseArgsToLongInt args) h "PyArg_ParseTuple"
       [VPtr args; VStr "l"; VRef 0] m /\
     initialised_then_calls (parseArgsToObject args) h "PyArg_ParseTuple"
       [VPtr args; VStr "O"; VRef 0] m /\
     initialised_then_calls (parseArgsToObjectPair args) h "PyArg_ParseTuple"
       [VPtr args; VStr "OO"; VRef 0; VRef 1] m /\
     initialised_then_calls (parseArgsToObjectTriple args) h "PyArg_ParseTuple"
       [VPtr args; VStr "OOO"; VRef 0; VRef 1; VRef 2] m) /\
  (symbol_address h "Py_BuildValue" <> NULL ->
   forall (n : Z) (p : ptr),
     initialised_then_calls (wrapLongInt n) h "Py_BuildValue"
       [VStr "l"; VLong n] m /\
     initialised_then_calls (wrapString p) h "Py_BuildValue"
       [VStr "s"; VPtr p] m /\
     initialised_then_calls (wrapDouble n) h "Py_BuildValue"
       [VStr "d"; VDouble n] m /\
     initialised_then_calls (wrapObject p) h "Py_BuildValue"
       [VStr "O"; VPtr p] m) /\
  (symbol_address h "PyBool_FromLong" <> NULL ->
   forall n,
     initialised_then_calls (wrapBool n) h "PyBool_FromLong" [VLong n] m) /\
  (symbol_address h "PyUnicode_AsUTF8" <> NULL ->
   forall p,
     initialised_then_calls (stringFromPythonObject p) h "PyUnicode_AsUTF8"
       [VPtr p] m) /\
  (symbol_address h "PyUnicode_FromString" <> NULL ->
   forall u,
     initialised_then_calls (getPyUnicode_FromString u) h
       "PyUnicode_FromString" [VPtr u] m) /\
  (symbol_address h "PyCFunction_NewEx" <> NULL ->
   forall ml data,
     initialised_then_calls (createPyCFunction ml data) h "PyCFunction_NewEx"
       [VPtr ml; VPtr data; VPtr NULL] m).
Proof.
  repeat match goal with |- _ /\ _ => split end.
  - intros Hf args.
    unfold parseArgsToString, parseArgsToDouble, parseArgsToLongInt,
      parseArgsToObject, parseArgsToObjectPair, parseArgsToObjectTriple.
    cbv zeta.
    repeat split; apply init_then_delegate; (reflexivity || exact Hf).
  - intros Hf n p.
    unfold wrapLongInt, wrapString, wrapDouble, wrapObject. cbv zeta.
    repeat split; apply init_then_delegate; (reflexivity || exact Hf).
  - intros Hf n. unfold wrapBool. cbv zeta.
    apply init_then_delegate; (reflexivity || exact Hf).
  - intros Hf p.
    apply (init_then_delegate pyunicode_asutf8 _ _ r_ret h m eq_refl Hf).
  - intros Hf u. unfold initialised_then_calls.
    rewrite bind_initialisePythonLibrary.
    rewrite guarded_defined by exact Hf.
    do 2 eexists. split; [reflexivity |]. split; [reflexivity |].
    unfold after_init. cbn [after_call trace globals pyunicode_fromstring].
    now rewrite <- app_assoc.
  - intros Hf ml data.
    apply (init_then_delegate py_createPyCFunction _ _ r_ret h m eq_refl Hf).
Qed.



Lemma delegate_returned {A} (var : slots -> ptr) (args : list cval)
      (g : reply -> A) (m : machine) :
  var (globals m) <> NULL ->
  returned ((f <- load var ;; r <- call f args ;; ret (g r)) m) =
  Some (g (answer m (var (globals m)) args)).
Proof.
  intros Hf. now rewrite (delegate_defined var args g m Hf).
Qed.

(** X5.  No parse function initialises its automatics or looks at the
    status before it returns.  When the callee made no store to an
    automatic (as a failed parse does), the function still returns, and
    the output taken from that automatic is the indeterminate content of
    an uninitialised variable: the returned value for the first one, what
    goes out through [objectB] for the second, through [objectC] for the
    third. *)
Theorem unwritten_output_is_indeterminate (args : ptr) (m : machine) :
  let f := pyarg_parsetuple (globals m) in
  let stores fmt refs :=
    r_stores (answer m f (VPtr args :: VStr fmt :: refs)) in
  f <> NULL ->
  (untouched 0 (stores "s" [VRef 0]) ->
   option_map fst (returned (parseArgsToString args m)) = Some Vundef) /\
  (untouched 0 (stores "d" [VRef 0]) ->
   option_map fst (returned (parseArgsToDouble args m)) = Some Vundef) /\
  (untouched 0 (stores "l" [VRef 0]) ->
   option_map fst (returned (parseArgsToLongInt args m)) = Some Vundef) /\
  (untouched 0 (stores "O" [VRef 0]) ->
   option_map fst (returned (parseArgsToObject args m)) = Some Vundef) /\
  (untouched 0 (stores "OO" [VRef 0; VRef 1]) ->
   option_map (fun '(valueA, _, _) => valueA)
              (returned (parseArgsToObjectPair args m)) = Some Vundef) /\
  (untouched 1 (stores "OO" [VRef 0; VRef 1]) ->
   option_map (fun '(_, objectB, _) => objectB)
              (returned (parseArgsToObjectPair args m)) = Some Vundef) /\
  (untouched 0 (stores "OOO" [VRef 0; VRef 1; VRef 2]) ->
   option_map (fun '(valueA, _, _, _) => valueA)
              (returned (parseArgsToObjectTriple args m)) = Some Vundef) /\
  (untouched 1 (stores "OOO" [VRef 0; VRef 1; VRef 2]) ->
   option_map (fun '(_, objectB, _, _) => objectB)
              (returned (parseArgsToObjectTriple args m)) = Some Vundef) /\
  (untouched 2 (stores "OOO" [VRef 0; VRef 1; VRef 2]) ->
   option_map (fun '(_, _, objectC, _) => objectC)
              (returned (parseArgsToObjectTriple args m)) = Some Vundef).
Proof.
  cbv zeta. intros Hf.
  unfold parseArgsToString, parseArgsToDouble, parseArgsToLongInt,
    parseArgsToObject, parseArgsToObjectPair, parseArgsToObjectTriple.
  cbv zeta.
  repeat match goal with |- _ /\ _ => split end;
    intros Hu; rewrite delegate_returned by exact Hf;
    cbn [option_map fst snd]; f_equal; apply cell_untouched; exact Hu.
Qed.

(** X6.  The status reaches [error] through an [int]: whatever the callee
    answers, the [long int] a parse function stores in [error] lies in the
    range of [int]. *)
Theorem error_fits_int (args : ptr) (m : machine) :
  (forall value error,
     returned (parseArgsToString args m) = Some (value, error) ->
     - 2 ^ 31 <= error < 2 ^ 31) /\
  (forall value error,
     returned (parseArgsToDouble args m) = Some (value, error) ->
     - 2 ^ 31 <= error < 2 ^ 31) /\
  (forall value error,
     returned (parseArgsToLongInt args m) = Some (value, error) ->
     - 2 ^ 31 <= error < 2 ^ 31) /\
  (forall value error,
     returned (parseArgsToObject args m) = Some (value, error) ->
     - 2 ^ 31 <= error < 2 ^ 31) /\
  (forall valueA objectB error,
     returned (parseArgsToObjectPair args m) = Some (valueA, objectB, error) ->
     - 2 ^ 31 <= error < 2 ^ 31) /\
  (forall valueA objectB objectC error,
     returned (parseArgsToObjectTriple args m) =
       Some (valueA, objectB, objectC, error) ->
     - 2 ^ 31 <= error < 2 ^ 31).
Proof.
  unfold parseArgsToString, parseArgsToDouble, parseArgsToLongInt,
    parseArgsToObject, parseArgsToObjectPair, parseArgsToObjectTriple.
  cbv zeta.
  destruct (Z.eq_dec (pyarg_parsetuple (globals m)) NULL) as [E | N].
  - repeat match goal with |- _ /\ _ => split end; intros;
      match goal with
      | H : returned _ = Some _ |- _ =>
          rewrite delegate_null in H by exact E; discriminate H
      end.
  - repeat match goal with |- _ /\ _ => split end; intros;
      match goal with
      | H : returned _ = Some _ |- _ =>
          rewrite delegate_returned in H by exact N;
          injection H as; subst; apply int_of_raw_range
      end.
Qed.

End Further.


(** ** Further runs against the stub runtimes *)

Lemma stringFromPythonObject_delegates_once_witness :
  pyunicode_asutf8 (globals ready3) <> NULL /\
  stringFromPythonObject 0xA000 ready3 =
    Returns 0xB000
            (@mkMachine python3_posix (globals ready3) 1%nat
               (trace ready3 ++ [EvCall 0x3000 [VPtr 0xA000]])).
Proof.
  assert (H : pyunicode_asutf8 (globals ready3) <> NULL)
    by (vm_compute; lia).
  split; [exact H |].
  rewrite (stringFromPythonObject_delegates_once 0xA000 ready3 H).
  reflexivity.
Defined.

(** From the freshly loaded state, [wrapBool] reaches the address of
    [PyBool_FromLong] and [createPyCFunction] that of [PyCFunction_NewEx]. *)
Lemma each_function_calls_its_own_symbol_witness :
  @symbol_address python3_posix libpython "PyBool_FromLong" <> NULL /\
  @symbol_address python3_posix libpython "PyCFunction_NewEx" <> NULL /\
  initialised_then_calls (wrapBool 0) libpython "PyBool_FromLong"
    [VLong 0] (at_load python3_posix 0%nat) /\
  initialised_then_calls (createPyCFunction 0x7000 0xA000) libpython
    "PyCFunction_NewEx" [VPtr 0x7000; VPtr 0xA000; VPtr NULL]
    (at_load python3_posix 0%nat).
Proof.
  assert (Hb : @symbol_address python3_posix libpython "PyBool_FromLong"
               <> NULL) by (vm_compute; lia).
  assert (Hn : @symbol_address python3_posix libpython "PyCFunction_NewEx"
               <> NULL) by (vm_compute; lia).
  destruct (each_function_calls_its_own_symbol
              libpython (at_load python3_posix 0%nat))
    as (_ & _ & Hbool & _ & _ & Hnew).
  split; [exact Hb |]. split; [exact Hn |].
  split; [exact (Hbool Hb 0) | exact (Hnew Hn 0x7000 0xA000)].
Defined.

(** A rejected tuple: the callee answers 0 and stores nothing, and
    [parseArgsToString] returns its uninitialised automatic. *)
Lemma unwritten_output_is_indeterminate_witness :
  pyarg_parsetuple (globals ready_rejecting) <> NULL /\
  untouched 0
    (r_stores (answer ready_rejecting
                      (pyarg_parsetuple (globals ready_rejecting))
                      [VPtr 0x8000; VStr "s"; VRef 0])) /\
  option_map fst (returned (parseArgsToString 0x8000 ready_rejecting)) =
    Some Vundef /\
  returned (parseArgsToString 0x8000 ready_rejecting) = Some (Vundef, 0).
Proof.
  assert (H : pyarg_parsetuple (globals ready_rejecting) <> NULL)
    by (vm_compute; lia).
  assert (Hu : untouched 0
            (r_stores (answer ready_rejecting
                              (pyarg_parsetuple (globals ready_rejecting))
                              [VPtr 0x8000; VStr "s"; VRef 0])))
    by (intros s Hin; cbv in Hin; destruct Hin).
  split; [exact H |]. split; [exact Hu |].
  split; [| reflexivity].
  exact (proj1 (unwritten_output_is_indeterminate 0x8000 ready_rejecting H) Hu).
Defined.

Lemma error_fits_int_witness :
  returned (parseArgsToDouble 0x8000 ready3) = Some (VDouble bits_3_14, 1) /\
  - 2 ^ 31 <= 1 < 2 ^ 31.
Proof.
  assert (H : returned (parseArgsToDouble 0x8000 ready3) =
              Some (VDouble bits_3_14, 1)) by reflexivity.
  split; [exact H |].
  exact (proj1 (proj2 (error_fits_int 0x8000 ready3)) (VDouble bits_3_14) 1 H).
Defined.

(** A library change: after an initialisation against the Python image,
    one against an image that has none of the symbols makes the pointer to
    [PyUnicode_FromString] null again. *)
Example reinitialised_against_foreign_image :
  exists m,
    (initialisePythonLibrary libpython ;; initialisePythonLibrary 0x7e0000)
      (at_load python3_posix 0%nat) = Returns None m /\
    slot FromString (globals m) = NULL /\
    _pythonLibraryHandle (globals m) = 0x7e0000.
Proof. eexists. split; [vm_compute; reflexivity | split; reflexivity]. Qed.
